(** * Praxis Advisor: a shallow embedding of [src/praxis_advisor.py]

    The source file holds two view functions named [generate_charter]:
    - [Primary.generate_charter] (lines 28-427): validates the request,
      reads the fields and evaluates the user-prompt f-string;
    - [Pasted.generate_charter] (lines 475-516, inside a pasted markdown
      code block): calls the generation API and relays its text.
    Both are modelled as written.  The JSON payload is a [json] value, a
    Python [dict] parsed from it is an association list, Python's falsiness
    is [truthy], exceptions are [PyExn] values, and the side effects a
    handler performs (building prompts, calling the upstream API) are
    recorded in a list of [event]s returned next to the outcome.
    The markdown that follows the f-string of the first function (from
    line 428 on) is not Python, so the file as a whole does not parse;
    each function is modelled as its text reads. *)

From Stdlib Require Import String List ZArith Bool Lia.
Import ListNotations.
Open Scope string_scope.
Set Warnings "-register-all".

(** ** JSON values and Python's view of them *)

Inductive json : Type :=
  | JNull
  | JBool (b : bool)
  | JNum (z : Z)
  | JStr (s : string)
  | JArr (l : list json)
  | JObj (kv : list (string * json)).

(** A parsed JSON object as a Python [dict]: key lookup. *)
Fixpoint dict_get (d : list (string * json)) (k : string) : option json :=
  match d with
  | [] => None
  | (k', v) :: d' => if String.eqb k k' then Some v else dict_get d' k
  end.

(** [data.get(k, dflt)]; JSON [null] and Python [None] are both [JNull],
    so [data.get(k)] is [get_or d k JNull]. *)
Definition get_or (d : list (string * json)) (k : string) (dflt : json) : json :=
  match dict_get d k with
  | Some v => v
  | None => dflt
  end.

(** Python truthiness of a value parsed from JSON. *)
Definition truthy (v : json) : bool :=
  match v with
  | JNull => false
  | JBool b => b
  | JNum z => negb (Z.eqb z 0)
  | JStr s => negb (String.eqb s "")
  | JArr l => match l with [] => false | _ => true end
  | JObj kv => match kv with [] => false | _ => true end
  end.

(** [', '.join(xs)] *)
Definition join (sep : string) (xs : list string) : string :=
  String.concat sep xs.

(** ** Requests, responses, exceptions and effects *)

Inductive meth : Type := GET | HEAD | POST | PUT | PATCH | DELETE | OPTIONS.

(** [mimetype] is the content type without parameters, lower-cased, as
    werkzeug exposes it; [body] is [None] when the bytes are not valid
    JSON. *)
Record request : Type := mkRequest {
  method : meth;
  path : string;
  mimetype : string;
  body : option json
}.

Definition ends_with (suf s : string) : bool :=
  let n := String.length s in
  let m := String.length suf in
  Nat.leb m n && String.eqb (substring (n - m) m s) suf.

(** werkzeug's [Request.is_json]. *)
Definition is_json (r : request) : bool :=
  let mt := mimetype r in
  String.eqb mt "application/json"
  || (String.prefix "application/" mt && ends_with "+json" mt).

(** A Python exception: class name and [str(e)]. *)
Record exn : Type := PyExn { exn_class : string; exn_msg : string }.

Inductive resp_body : Type :=
  | Json (j : json)              (* [jsonify(...)] *)
  | FrameworkPage (code : Z)     (* Flask/werkzeug default error page *)
  | AutoOptions.                 (* Flask's automatic OPTIONS reply *)

Inductive outcome : Type :=
  | Resp (status : Z) (b : resp_body)
  | Raised (e : exn).

(** The arguments of [anthropic.messages.create]. *)
Record api_call : Type := mkApiCall {
  call_model : string;
  call_max_tokens : Z;
  call_prompt : string
}.

(** What the upstream call yields: the text segments of [message.content]
    and the usage counters, or the exception it raised. *)
Inductive api_result : Type :=
  | ApiOk (content : list string) (input_tokens output_tokens : Z)
  | ApiErr (e : exn).

Inductive event : Type :=
  | BuildSystemPrompt
  | BuildUserPrompt
  | CallApi (c : api_call).

(** [jsonify({"error": True, "message": m, "statusCode": c}), c] *)
Definition error_body (m : string) (c : Z) : json :=
  JObj [("error", JBool true); ("message", JStr m); ("statusCode", JNum c)].

(** ** Python [str()] of values, as an f-string replacement field uses it *)

Fixpoint digits_of (fuel : nat) (n : Z) (acc : string) : string :=
  match fuel with
  | O => acc
  | S fuel' =>
      let d := Z.modulo n 10 in
      let c := String (Ascii.ascii_of_nat (48 + Z.to_nat d)) acc in
      if Z.ltb n 10 then c else digits_of fuel' (Z.div n 10) c
  end.

(** [str(n)] for a Python [int]. *)
Definition z_str (z : Z) : string :=
  if Z.ltb z 0 then "-" ++ digits_of 64 (Z.opp z) ""
  else digits_of 64 z "".

(** [repr(v)] for values parsed from JSON (strings in single quotes). *)
Fixpoint py_repr (j : json) : string :=
  match j with
  | JNull => "None"
  | JBool true => "True"
  | JBool false => "False"
  | JNum z => z_str z
  | JStr s => "'" ++ s ++ "'"
  | JArr l => "[" ++ join ", " (map py_repr l) ++ "]"
  | JObj kv =>
      "{" ++ join ", " (map (fun '(k, v) => "'" ++ k ++ "': " ++ py_repr v) kv)
      ++ "}"
  end.

(** [str(v)]: a string is itself, anything else is its [repr]. *)
Definition py_str (j : json) : string :=
  match j with
  | JStr s => s
  | _ => py_repr j
  end.

(** A value bound to a name in the handler's scope: a JSON-like value, or
    an opaque object (module, class, function, client). *)
Inductive pyval : Type :=
  | PyJ (j : json)
  | PyOpaque (descr : string).

Definition pyval_str (v : pyval) : string :=
  match v with
  | PyJ j => py_str j
  | PyOpaque descr => descr
  end.

Definition pyval_truthy (v : pyval) : bool :=
  match v with
  | PyJ j => truthy j
  | PyOpaque _ => true
  end.

Definition env := list (string * pyval).

Fixpoint env_lookup (e : env) (x : string) : option pyval :=
  match e with
  | [] => None
  | (y, v) :: e' => if String.eqb x y then Some v else env_lookup e' x
  end.

Definition name_error (x : string) : exn :=
  PyExn "NameError" ("name '" ++ x ++ "' is not defined").

(** Python's LEGB name resolution, as seen from a function body that has
    no enclosing function: locals, then module globals, then builtins. *)
Definition resolve (locals globals builtins : env) (x : string)
  : exn + pyval :=
  match env_lookup locals x with
  | Some v => inr v
  | None =>
      match env_lookup globals x with
      | Some v => inr v
      | None =>
          match env_lookup builtins x with
          | Some v => inr v
          | None => inl (name_error x)
          end
      end
  end.

(** The builtins an unqualified name in the handlers could resolve to. *)
Definition builtins : env :=
  map (fun x => (x, PyOpaque ("<built-in " ++ x ++ ">")))
    ["print"; "len"; "str"; "int"; "float"; "bool"; "dict"; "list";
     "tuple"; "set"; "range"; "isinstance"; "Exception"; "ValueError";
     "TypeError"; "KeyError"; "NameError"; "IndexError"; "open"; "min";
     "max"; "sum"; "sorted"; "enumerate"; "zip"; "map"; "filter"; "any";
     "all"; "repr"; "type"; "object"; "None"; "True"; "False"].

(** ** f-strings *)

(** A piece of an f-string: literal text, a field [{x}], or a field
    [{x if x else 'dflt'}]. *)
Inductive fpiece : Type :=
  | FLit (s : string)
  | FVar (x : string)
  | FCond (x : string) (dflt : string).

(** Evaluation of an f-string from left to right; the first field whose
    evaluation raises makes the whole f-string raise. *)
Fixpoint eval_fstring (resolve_name : string -> exn + pyval)
    (ps : list fpiece) : exn + string :=
  match ps with
  | [] => inr ""
  | p :: ps' =>
      let here :=
        match p with
        | FLit s => inr s
        | FVar x =>
            match resolve_name x with
            | inl e => inl e
            | inr v => inr (pyval_str v)
            end
        | FCond x dflt =>
            match resolve_name x with
            | inl e => inl e
            | inr v => inr (if pyval_truthy v then pyval_str v else dflt)
            end
        end in
      match here with
      | inl e => inl e
      | inr s =>
          match eval_fstring resolve_name ps' with
          | inl e => inl e
          | inr rest => inr (s ++ rest)
          end
      end
  end.

(** ** The primary handler, [generate_charter] of lines 28-427 *)

Module Primary.

Definition required_fields : list string := ["projectName"; "projectGoal"].

(** Line 58: [[field for field in required_fields if not data.get(field)]] *)
Definition missing_fields (d : list (string * json)) : list string :=
  filter (fun f => negb (truthy (get_or d f JNull))) required_fields.

(** The local variables assigned on lines 68-75. *)
Record fields : Type := mkFields {
  project_name : json;
  project_goal : json;
  timeline : json;
  budget : json;
  stakeholders : json;
  constraints : json;
  industry : json;
  team_size : json
}.

Definition extract (d : list (string * json)) : fields := {|
  project_name := get_or d "projectName" JNull;
  project_goal := get_or d "projectGoal" JNull;
  timeline := get_or d "timeline" (JStr "Not specified");
  budget := get_or d "budget" (JStr "Not specified");
  stakeholders := get_or d "stakeholders" (JStr "To be determined");
  constraints := get_or d "constraints" (JStr "None specified");
  industry := get_or d "industry" (JStr "General");
  team_size := get_or d "teamSize" (JStr "To be determined")
|}.

(** Lines 78-80 (the literal, shortened). *)
Definition system_prompt : string :=
  "You are Praxis Advisor, an expert strategic business consultant with over 20 years of experience in Agile/Scrum project management, portfolio coordination, and cross-functional team leadership. ...".

(** The local scope of the handler when line 83 runs. *)
Definition locals (d : list (string * json)) : env :=
  let f := extract d in
  [("data", PyJ (JObj d));
   ("required_fields", PyJ (JArr (map JStr required_fields)));
   ("missing_fields", PyJ (JArr []));
   ("project_name", PyJ (project_name f));
   ("project_goal", PyJ (project_goal f));
   ("timeline", PyJ (timeline f));
   ("budget", PyJ (budget f));
   ("stakeholders", PyJ (stakeholders f));
   ("constraints", PyJ (constraints f));
   ("industry", PyJ (industry f));
   ("team_size", PyJ (team_size f));
   ("system_prompt", PyJ (JStr system_prompt))].

(** The module globals bound by lines 6-29. *)
Definition globals : env :=
  map (fun x => (x, PyOpaque ("<" ++ x ++ ">")))
    ["Flask"; "request"; "jsonify"; "CORS"; "Anthropic"; "os"; "datetime";
     "app"; "client"; "home"; "generate_charter"].

(** The user prompt f-string of lines 83-427.  The static text around the
    fields is shortened; the fields are those of lines 93-100, in order. *)
Definition user_prompt_template : list fpiece :=
  [FLit "Generate a comprehensive project charter for the following project:

**Project Information:**
Project Name: ";
   FVar "projectName";
   FLit "
Project Goal: ";
   FVar "projectGoal";
   FLit "
Timeline: ";
   FCond "timeline" "Not specified";
   FLit "
Budget: ";
   FCond "budget" "Not specified";
   FLit "
Key Stakeholders: ";
   FCond "stakeholders" "Not specified";
   FLit "
Constraints: ";
   FCond "constraints" "Not specified";
   FLit "
Industry: ";
   FCond "industry" "Not specified";
   FLit "
Team Size: ";
   FCond "teamSize" "Not specified";
   FLit "

**Generate the charter with these sections:** ..."].

Definition user_prompt (d : list (string * json)) : exn + string :=
  eval_fstring (resolve (locals d) globals builtins) user_prompt_template.

Definition content_type_error : json :=
  error_body "Content-Type must be application/json" 400.

(** [request.get_json()] after the [is_json] check: a body that is not
    valid JSON makes Flask raise [BadRequest] (message as outside debug
    mode). *)
Definition bad_request : exn :=
  PyExn "BadRequest"
    "400 Bad Request: The browser (or proxy) sent a request that this server could not understand.".

(** The Python type name of a value parsed from JSON. *)
Definition py_type_name (j : json) : string :=
  match j with
  | JNull => "NoneType"
  | JBool _ => "bool"
  | JNum _ => "int"
  | JStr _ => "str"
  | JArr _ => "list"
  | JObj _ => "dict"
  end.

(** [data.get] on a JSON value [j] that is not an object. *)
Definition no_get (j : json) : exn :=
  PyExn "AttributeError" ("'" ++ py_type_name j ++ "' object has no attribute 'get'").

(** The body of the function ends with the f-string assignment (the
    markdown that follows it is not Python), so a completed evaluation
    falls off the end and the view returns [None], which Flask refuses. *)
Definition no_response : exn :=
  PyExn "TypeError" "The view function did not return a valid response.".

Definition generate_charter (r : request) : outcome * list event :=
  if negb (is_json r) then (Resp 400 (Json content_type_error), [])
  else
    match body r with
    | None => (Raised bad_request, [])
    | Some (JObj d) =>
        match missing_fields d with
        | _ :: _ =>
            (Resp 400 (Json (error_body
               ("Missing required fields: " ++ join ", " (missing_fields d))
               400)), [])
        | [] =>
            match user_prompt d with
            | inl e => (Raised e, [BuildSystemPrompt])
            | inr _ => (Raised no_response, [BuildSystemPrompt; BuildUserPrompt])
            end
        end
    | Some j => (Raised (no_get j), [])
    end.

End Primary.

(** ** The pasted handler, [generate_charter] of lines 475-516 *)

Module Pasted.

(** [request.get_json()] with no preceding [is_json] check: current Flask
    raises [UnsupportedMediaType] for a non-JSON content type and
    [BadRequest] for a body that does not decode. *)
Definition get_json (r : request) : exn + json :=
  if negb (is_json r) then
    inl (PyExn "UnsupportedMediaType"
      "415 Unsupported Media Type: Did not attempt to load JSON data because the request Content-Type was not 'application/json'.")
  else
    match body r with
    | None => inl Primary.bad_request
    | Some j => inr j
    end.

Definition model : string := "claude-sonnet-4-20250514".

(** Line 490. *)
Definition prompt : string := "[INSERT THE FULL PROMPT FROM ABOVE HERE]".

(** Lines 492-498. *)
Definition the_call : api_call := mkApiCall model 8000 prompt.

Definition index_error : exn := PyExn "IndexError" "list index out of range".

(** Lines 512-516: [except Exception as e]. *)
Definition fail (e : exn) : outcome :=
  Resp 500 (Json (JObj [("success", JBool false); ("message", JStr (exn_msg e))])).

(** Lines 502-510. *)
Definition success_body (projectName : json) (charter now : string) : json :=
  JObj [("success", JBool true);
        ("projectName", projectName);
        ("charter", JStr charter);
        ("metadata", JObj [("generatedAt", JStr now);
                           ("estimatedCost", JStr "0.025")])].

(** [now] is [datetime.now().isoformat()]; [api] is the upstream service. *)
Definition generate_charter (now : string) (api : api_call -> api_result)
    (r : request) : outcome * list event :=
  match get_json r with
  | inl e => (fail e, [])
  | inr (JObj d) =>
      let projectName := get_or d "projectName" (JStr "") in
      match api the_call with
      | ApiErr e => (fail e, [CallApi the_call])
      | ApiOk content _ _ =>
          match content with
          | [] => (fail index_error, [CallApi the_call])
          | charter :: _ =>
              (Resp 200 (Json (success_body projectName charter now)),
               [CallApi the_call])
          end
      end
  | inr j => (fail (Primary.no_get j), [])
  end.

End Pasted.

(** ** Routing *)

(** Lines 18-26. *)
Definition home : outcome :=
  Resp 200 (Json (JObj [("status", JStr "online");
                        ("service", JStr "Praxis Advisor - Project Charter Generator");
                        ("version", JStr "1.0");
                        ("endpoint", JStr "/webhook/praxis-charter")])).

(** An exception escaping a view: an HTTP exception renders its own
    default page, any other becomes the default 500 page. *)
Definition finalize (o : outcome) : outcome :=
  match o with
  | Raised e =>
      if String.eqb (exn_class e) "BadRequest" then Resp 400 (FrameworkPage 400)
      else if String.eqb (exn_class e) "UnsupportedMediaType" then Resp 415 (FrameworkPage 415)
      else Resp 500 (FrameworkPage 500)
  | _ => o
  end.

(** The Flask URL map of the application: ['/'] with the default methods
    (GET, with HEAD and OPTIONS added by Flask) and
    ['/webhook/praxis-charter'] with [methods=['POST']] (OPTIONS added by
    Flask).  No error handler is registered, so unmatched requests get
    werkzeug's default pages.  [webhook] is the view bound to the second
    rule. *)
Definition dispatch (webhook : request -> outcome * list event) (r : request)
  : outcome :=
  if String.eqb (path r) "/" then
    match method r with
    | GET | HEAD => home
    | OPTIONS => Resp 200 AutoOptions
    | _ => Resp 405 (FrameworkPage 405)
    end
  else if String.eqb (path r) "/webhook/praxis-charter" then
    match method r with
    | POST => finalize (fst (webhook r))
    | OPTIONS => Resp 200 AutoOptions
    | _ => Resp 405 (FrameworkPage 405)
    end
  else Resp 404 (FrameworkPage 404).

(** A field of the [metadata] object of a 200 JSON response. *)
Definition meta_field (o : outcome) (k : string) : option json :=
  match o with
  | Resp 200 (Json (JObj kv)) =>
      match dict_get kv "metadata" with
      | Some (JObj m) => dict_get m k
      | _ => None
      end
  | _ => None
  end.

Example z_str_1000000 : z_str 1000000 = "1000000".
Proof. reflexivity. Qed.

Example primary_missing_both :
  fst (Primary.generate_charter (mkRequest POST "/webhook/praxis-charter"
         "application/json" (Some (JObj [("projectGoal", JStr "")]))))
  = Resp 400 (Json (error_body "Missing required fields: projectName, projectGoal" 400)).
Proof. reflexivity. Qed.

Example primary_valid :
  Primary.generate_charter (mkRequest POST "/webhook/praxis-charter"
         "application/json" (Some (JObj [("projectName", JStr "P"); ("projectGoal", JStr "G")])))
  = (Raised (name_error "projectName"), [BuildSystemPrompt]).
Proof. reflexivity. Qed.

(** ** Properties *)

(** A well-formed request to the charter endpoint. *)
Definition sample_request : request :=
  mkRequest POST "/webhook/praxis-charter" "application/json"
    (Some (JObj [("projectName", JStr "Apollo"); ("projectGoal", JStr "Launch")])).

(** C1 (counterexample): with 1,000,000 input and 1,000,000 output tokens
    reported by a successful upstream call, the estimated cost returned is
    ["0.025"], not ["18.0000"]. *)
Lemma C1_cost_not_18 :
  meta_field (fst (Pasted.generate_charter "2026-01-01T00:00:00"
       (fun _ => ApiOk ["charter text"] 1000000 1000000) sample_request))
    "estimatedCost" = Some (JStr "0.025")
  /\ Some (JStr "0.025") <> Some (JStr "18.0000").
Proof. split; [reflexivity | discriminate]. Qed.

(** C1 (amended): for every successful upstream result with a first text
    segment, whatever the usage counters, the estimated cost in the
    response metadata is the constant string ["0.025"]. *)
Theorem C1_cost_constant (now : string) (api : api_call -> api_result)
    (r : request) (d : list (string * json)) (c : string) (rest : list string)
    (input_tokens output_tokens : Z) :
  Pasted.get_json r = inr (JObj d) ->
  api Pasted.the_call = ApiOk (c :: rest) input_tokens output_tokens ->
  meta_field (fst (Pasted.generate_charter now api r)) "estimatedCost"
  = Some (JStr "0.025").
Proof.
  intros Hj Ha. unfold Pasted.generate_charter. rewrite Hj, Ha. reflexivity.
Qed.

Lemma C1_cost_constant_witness :
  meta_field (fst (Pasted.generate_charter "t"
       (fun _ => ApiOk ["x"] 1000000 1000000) sample_request))
    "estimatedCost" = Some (JStr "0.025").
Proof.
  apply (C1_cost_constant "t" (fun _ => ApiOk ["x"] 1000000 1000000)
           sample_request [("projectName", JStr "Apollo"); ("projectGoal", JStr "Launch")]
           "x" [] 1000000 1000000); reflexivity.
Defined.

(** C2: a JSON request whose [projectName] or [projectGoal] is absent or
    falsy (in particular an empty string) is answered with 400 and the
    message ["Missing required fields: "] followed by exactly the missing
    names, joined by [", "], in the order projectName, projectGoal. *)
Theorem C2_missing_fields_message (r : request) (d : list (string * json)) :
  is_json r = true ->
  body r = Some (JObj d) ->
  truthy (get_or d "projectName" JNull) = false
  \/ truthy (get_or d "projectGoal" JNull) = false ->
  fst (Primary.generate_charter r)
  = Resp 400 (Json (error_body
      ("Missing required fields: " ++
        (if negb (truthy (get_or d "projectName" JNull))
            && negb (truthy (get_or d "projectGoal" JNull))
         then "projectName, projectGoal"
         else if negb (truthy (get_or d "projectName" JNull))
         then "projectName" else "projectGoal")) 400)).
Proof.
  intros Hj Hb Hm. unfold Primary.generate_charter. rewrite Hj, Hb. cbn [negb].
  unfold Primary.missing_fields, Primary.required_fields. cbn [filter].
  destruct (truthy (get_or d "projectName" JNull));
    destruct (truthy (get_or d "projectGoal" JNull));
    destruct Hm as [Hm | Hm]; try discriminate; reflexivity.
Qed.

Lemma C2_missing_fields_message_witness :
  fst (Primary.generate_charter (mkRequest POST "/webhook/praxis-charter"
         "application/json" (Some (JObj [("projectName", JStr "")]))))
  = Resp 400 (Json (error_body "Missing required fields: projectName, projectGoal" 400)).
Proof.
  apply (C2_missing_fields_message
           (mkRequest POST "/webhook/praxis-charter" "application/json"
              (Some (JObj [("projectName", JStr "")])))
           [("projectName", JStr "")]); [reflexivity | reflexivity | left; reflexivity].
Defined.

(** C3 (counterexample): a request passing validation whose [stakeholders]
    is the empty string keeps [""] for that field instead of the default
    ["To be determined"] (and likewise an empty [industry] is not
    ["General"]). *)
Lemma C3_empty_not_defaulted :
  Primary.missing_fields
    [("projectName", JStr "P"); ("projectGoal", JStr "G");
     ("stakeholders", JStr ""); ("industry", JStr "")] = []
  /\ Primary.stakeholders (Primary.extract
       [("projectName", JStr "P"); ("projectGoal", JStr "G");
        ("stakeholders", JStr ""); ("industry", JStr "")]) = JStr ""
  /\ Primary.industry (Primary.extract
       [("projectName", JStr "P"); ("projectGoal", JStr "G");
        ("stakeholders", JStr ""); ("industry", JStr "")]) = JStr ""
  /\ JStr "" <> JStr "To be determined"
  /\ JStr "" <> JStr "General".
Proof. repeat split; try reflexivity; discriminate. Qed.

(** C3 (amended): each optional field that is absent resolves to its
    documented default (timeline and budget "Not specified", stakeholders
    "To be determined", constraints "None specified", industry "General",
    teamSize "To be determined"); a field that is present, the empty
    string included, keeps its value. *)
Theorem C3_absent_fields_defaulted (d : list (string * json)) :
  (dict_get d "timeline" = None -> Primary.timeline (Primary.extract d) = JStr "Not specified")
  /\ (dict_get d "budget" = None -> Primary.budget (Primary.extract d) = JStr "Not specified")
  /\ (dict_get d "stakeholders" = None ->
      Primary.stakeholders (Primary.extract d) = JStr "To be determined")
  /\ (dict_get d "constraints" = None ->
      Primary.constraints (Primary.extract d) = JStr "None specified")
  /\ (dict_get d "industry" = None -> Primary.industry (Primary.extract d) = JStr "General")
  /\ (dict_get d "teamSize" = None ->
      Primary.team_size (Primary.extract d) = JStr "To be determined")
  /\ (forall v, dict_get d "timeline" = Some v -> Primary.timeline (Primary.extract d) = v)
  /\ (forall v, dict_get d "budget" = Some v -> Primary.budget (Primary.extract d) = v)
  /\ (forall v, dict_get d "stakeholders" = Some v ->
      Primary.stakeholders (Primary.extract d) = v)
  /\ (forall v, dict_get d "constraints" = Some v ->
      Primary.constraints (Primary.extract d) = v)
  /\ (forall v, dict_get d "industry" = Some v -> Primary.industry (Primary.extract d) = v)
  /\ (forall v, dict_get d "teamSize" = Some v -> Primary.team_size (Primary.extract d) = v).
Proof.
  cbn [Primary.extract Primary.timeline Primary.budget Primary.stakeholders
       Primary.constraints Primary.industry Primary.team_size].
  unfold get_or.
  repeat split; intros; match goal with H : dict_get _ _ = _ |- _ => rewrite H end;
    reflexivity.
Qed.

Lemma C3_absent_fields_defaulted_witness :
  Primary.extract [("projectName", JStr "P"); ("projectGoal", JStr "G")]
  = Primary.mkFields (JStr "P") (JStr "G") (JStr "Not specified") (JStr "Not specified")
      (JStr "To be determined") (JStr "None specified") (JStr "General")
      (JStr "To be determined").
Proof.
  pose proof (C3_absent_fields_defaulted
                [("projectName", JStr "P"); ("projectGoal", JStr "G")])
    as [H1 [H2 [H3 [H4 [H5 [H6 _]]]]]].
  destruct (Primary.extract [("projectName", JStr "P"); ("projectGoal", JStr "G")])
    eqn:E.
  cbn in H1, H2, H3, H4, H5, H6.
  rewrite H1, H2, H3, H4, H5, H6 by reflexivity.
  injection E as <- <-; reflexivity.
Defined.

(** C4: a POST whose content type is not JSON is answered with 400 and
    [{error: true, message: "Content-Type must be application/json",
    statusCode: 400}], whatever its body. *)
Theorem C4_non_json_rejected (r : request) :
  method r = POST ->
  path r = "/webhook/praxis-charter" ->
  is_json r = false ->
  Primary.generate_charter r
  = (Resp 400 (Json (error_body "Content-Type must be application/json" 400)), [])
  /\ dispatch Primary.generate_charter r
     = Resp 400 (Json (error_body "Content-Type must be application/json" 400)).
Proof.
  intros Hm Hp Hj.
  assert (H : Primary.generate_charter r
              = (Resp 400 (Json (error_body "Content-Type must be application/json" 400)), [])).
  { unfold Primary.generate_charter. rewrite Hj. reflexivity. }
  split; [exact H |].
  unfold dispatch. rewrite Hp, Hm. cbn. rewrite H. reflexivity.
Qed.

Lemma C4_non_json_rejected_witness :
  dispatch Primary.generate_charter
    (mkRequest POST "/webhook/praxis-charter" "text/plain"
       (Some (JObj [("projectName", JStr "P"); ("projectGoal", JStr "G")])))
  = Resp 400 (Json (error_body "Content-Type must be application/json" 400)).
Proof.
  apply (C4_non_json_rejected
           (mkRequest POST "/webhook/praxis-charter" "text/plain"
              (Some (JObj [("projectName", JStr "P"); ("projectGoal", JStr "G")]))));
    reflexivity.
Defined.

(** C5 (counterexample): when the upstream call raises, the body is
    [{success: false, message: <text>}], not
    [{error: true, message: "Error generating charter: <text>", statusCode: 500}]. *)
Lemma C5_error_shape_differs :
  fst (Pasted.generate_charter "t"
         (fun _ => ApiErr (PyExn "APIConnectionError" "Connection error."))
         sample_request)
  = Resp 500 (Json (JObj [("success", JBool false); ("message", JStr "Connection error.")]))
  /\ Resp 500 (Json (JObj [("success", JBool false); ("message", JStr "Connection error.")]))
     <> Resp 500 (Json (error_body "Error generating charter: Connection error." 500)).
Proof. split; [reflexivity | discriminate]. Qed.

(** C5 (amended): in the pasted handler, the only one that calls the
    upstream API, an exception raised by [anthropic.messages.create] yields
    500 with [{success: false, message: str(e)}], the exception text
    verbatim with no prefix and no [error] or [statusCode] field; the
    handler issues that call once and does not retry it, and no partial
    result is returned. *)
Theorem C5_upstream_error (now : string) (api : api_call -> api_result)
    (r : request) (d : list (string * json)) (e : exn) :
  Pasted.get_json r = inr (JObj d) ->
  api Pasted.the_call = ApiErr e ->
  Pasted.generate_charter now api r
  = (Resp 500 (Json (JObj [("success", JBool false); ("message", JStr (exn_msg e))])),
     [CallApi Pasted.the_call]).
Proof.
  intros Hj Ha. unfold Pasted.generate_charter. rewrite Hj, Ha. reflexivity.
Qed.

Lemma C5_upstream_error_witness :
  Pasted.generate_charter "t"
    (fun _ => ApiErr (PyExn "AuthenticationError" "invalid x-api-key")) sample_request
  = (Resp 500 (Json (JObj [("success", JBool false); ("message", JStr "invalid x-api-key")])),
     [CallApi Pasted.the_call]).
Proof.
  apply (C5_upstream_error "t"
           (fun _ => ApiErr (PyExn "AuthenticationError" "invalid x-api-key"))
           sample_request [("projectName", JStr "Apollo"); ("projectGoal", JStr "Launch")]
           (PyExn "AuthenticationError" "invalid x-api-key")); reflexivity.
Defined.

(** C6 (counterexample): the metadata of a successful response carries no
    [inputTokens], [outputTokens] or [model] field. *)
Lemma C6_metadata_lacks_usage :
  meta_field (fst (Pasted.generate_charter "t"
       (fun _ => ApiOk ["charter text"] 1200 3400) sample_request)) "inputTokens" = None
  /\ meta_field (fst (Pasted.generate_charter "t"
       (fun _ => ApiOk ["charter text"] 1200 3400) sample_request)) "outputTokens" = None
  /\ meta_field (fst (Pasted.generate_charter "t"
       (fun _ => ApiOk ["charter text"] 1200 3400) sample_request)) "model" = None.
Proof. repeat split; reflexivity. Qed.

(** C6 (amended): when the upstream call succeeds with a first text segment,
    the handler answers 200 with [{success: true, projectName, charter,
    metadata: {generatedAt, estimatedCost: "0.025"}}], where [charter] is
    the first segment and [projectName] echoes the request's value (or
    [""] when absent); the usage counters are not reported. *)
Theorem C6_success_envelope (now : string) (api : api_call -> api_result)
    (r : request) (d : list (string * json)) (c : string) (rest : list string)
    (input_tokens output_tokens : Z) :
  Pasted.get_json r = inr (JObj d) ->
  api Pasted.the_call = ApiOk (c :: rest) input_tokens output_tokens ->
  Pasted.generate_charter now api r
  = (Resp 200 (Json (JObj
       [("success", JBool true);
        ("projectName", get_or d "projectName" (JStr ""));
        ("charter", JStr c);
        ("metadata", JObj [("generatedAt", JStr now);
                           ("estimatedCost", JStr "0.025")])])),
     [CallApi Pasted.the_call]).
Proof.
  intros Hj Ha. unfold Pasted.generate_charter. rewrite Hj, Ha. reflexivity.
Qed.

Lemma C6_success_envelope_witness :
  fst (Pasted.generate_charter "2026-10-18T09:00:00"
         (fun _ => ApiOk ["# Charter"; "more"] 1200 3400) sample_request)
  = Resp 200 (Json (JObj
       [("success", JBool true); ("projectName", JStr "Apollo");
        ("charter", JStr "# Charter");
        ("metadata", JObj [("generatedAt", JStr "2026-10-18T09:00:00");
                           ("estimatedCost", JStr "0.025")])])).
Proof.
  rewrite (C6_success_envelope "2026-10-18T09:00:00"
             (fun _ => ApiOk ["# Charter"; "more"] 1200 3400) sample_request
             [("projectName", JStr "Apollo"); ("projectGoal", JStr "Launch")]
             "# Charter" ["more"] 1200 3400); reflexivity.
Defined.

(** C7: in the primary handler, for every request that passes validation,
    the names [projectName], [projectGoal] and [teamSize] used in the user
    prompt f-string are bound nowhere in scope, the f-string raises
    [NameError] on [projectName], and the handler never reaches the
    upstream call. *)
Theorem C7_prompt_name_error (r : request) (d : list (string * json)) :
  is_json r = true ->
  body r = Some (JObj d) ->
  Primary.missing_fields d = [] ->
  resolve (Primary.locals d) Primary.globals builtins "projectName"
    = inl (name_error "projectName")
  /\ resolve (Primary.locals d) Primary.globals builtins "projectGoal"
    = inl (name_error "projectGoal")
  /\ resolve (Primary.locals d) Primary.globals builtins "teamSize"
    = inl (name_error "teamSize")
  /\ Primary.generate_charter r = (Raised (name_error "projectName"), [BuildSystemPrompt])
  /\ forall c, ~ In (CallApi c) (snd (Primary.generate_charter r)).
Proof.
  intros Hj Hb Hm.
  assert (Hp : Primary.user_prompt d = inl (name_error "projectName")).
  { unfold Primary.user_prompt, Primary.user_prompt_template. cbn. reflexivity. }
  assert (Hg : Primary.generate_charter r
               = (Raised (name_error "projectName"), [BuildSystemPrompt])).
  { unfold Primary.generate_charter. rewrite Hj, Hb, Hm. cbn [negb]. rewrite Hp.
    reflexivity. }
  split; [reflexivity |]. split; [reflexivity |]. split; [reflexivity |].
  split; [exact Hg |].
  intros c. rewrite Hg. cbn. intros [H | []]. discriminate.
Qed.

Lemma C7_prompt_name_error_witness :
  Primary.generate_charter sample_request
  = (Raised (name_error "projectName"), [BuildSystemPrompt]).
Proof.
  apply (C7_prompt_name_error sample_request
           [("projectName", JStr "Apollo"); ("projectGoal", JStr "Launch")]);
    reflexivity.
Defined.

(** C8: every GET request to [/] is answered with 200 and the health
    payload [{status: "online", service: "Praxis Advisor - Project Charter
    Generator", version: "1.0", endpoint: "/webhook/praxis-charter"}],
    whatever view serves the charter route. *)
Theorem C8_health_check (webhook : request -> outcome * list event) (r : request) :
  method r = GET ->
  path r = "/" ->
  dispatch webhook r
  = Resp 200 (Json (JObj [("status", JStr "online");
                          ("service", JStr "Praxis Advisor - Project Charter Generator");
                          ("version", JStr "1.0");
                          ("endpoint", JStr "/webhook/praxis-charter")])).
Proof. intros Hm Hp. unfold dispatch. rewrite Hp, Hm. reflexivity. Qed.

Lemma C8_health_check_witness :
  dispatch Primary.generate_charter (mkRequest GET "/" "" None)
  = Resp 200 (Json (JObj [("status", JStr "online");
                          ("service", JStr "Praxis Advisor - Project Charter Generator");
                          ("version", JStr "1.0");
                          ("endpoint", JStr "/webhook/praxis-charter")])).
Proof.
  apply (C8_health_check Primary.generate_charter (mkRequest GET "/" "" None));
    reflexivity.
Defined.




(** C10: a request failing validation (non-JSON content type, or
    [projectName]/[projectGoal] absent or falsy) is answered with a 400
    JSON error before any prompt is built and without any upstream call:
    the handler performs no effect at all. *)
Theorem C10_validation_has_no_effect (r : request) :
  is_json r = false
  \/ (exists d, is_json r = true /\ body r = Some (JObj d)
        /\ (truthy (get_or d "projectName" JNull) = false
            \/ truthy (get_or d "projectGoal" JNull) = false)) ->
  snd (Primary.generate_charter r) = []
  /\ exists m, fst (Primary.generate_charter r) = Resp 400 (Json (error_body m 400)).
Proof.
  intros [Hj | (d & Hj & Hb & Hm)].
  - unfold Primary.generate_charter. rewrite Hj. cbn.
    split; [reflexivity | eexists; reflexivity].
  - unfold Primary.generate_charter. rewrite Hj, Hb. cbn [negb].
    unfold Primary.missing_fields, Primary.required_fields. cbn [filter].
    destruct (truthy (get_or d "projectName" JNull));
      destruct (truthy (get_or d "projectGoal" JNull));
      destruct Hm as [Hm | Hm]; try discriminate;
      (split; [reflexivity | eexists; reflexivity]).
Qed.

Lemma C10_validation_has_no_effect_witness :
  snd (Primary.generate_charter (mkRequest POST "/webhook/praxis-charter"
         "application/json" (Some (JObj [("projectName", JStr "P")])))) = [].
Proof.
  apply (C10_validation_has_no_effect (mkRequest POST "/webhook/praxis-charter"
           "application/json" (Some (JObj [("projectName", JStr "P")])))).
  right. exists [("projectName", JStr "P")].
  split; [reflexivity | split; [reflexivity | right; reflexivity]].
Defined.

(** ** Further properties of the handlers and the routing *)

(** The user-prompt f-string of the primary handler raises on its first
    field, whatever the payload. *)
Lemma primary_user_prompt_fails (d : list (string * json)) :
  Primary.user_prompt d = inl (name_error "projectName").
Proof. unfold Primary.user_prompt, Primary.user_prompt_template. cbn. reflexivity. Qed.

(** Python falsiness on values parsed from JSON. *)
Lemma truthy_false_iff (v : json) :
  truthy v = false <->
  In v [JNull; JBool false; JNum 0; JStr ""; JArr []; JObj []].
Proof.
  split.
  - destruct v as [| [] | z | s | [|x l] | [|kv l]]; cbn; try discriminate; intros H.
    + tauto.
    + tauto.
    + apply negb_false_iff, Z.eqb_eq in H. subst. tauto.
    + apply negb_false_iff, String.eqb_eq in H. subst. tauto.
    + tauto.
    + tauto.
  - cbn. intros [<- | [<- | [<- | [<- | [<- | [<- | []]]]]]]; reflexivity.
Qed.

(** X1: the primary handler never produces a success response and never
    calls the upstream API: its outcome is a 400 JSON error or an escaping
    exception. *)
Theorem primary_never_succeeds (r : request) :
  ((exists m, fst (Primary.generate_charter r) = Resp 400 (Json (error_body m 400)))
   \/ (exists e, fst (Primary.generate_charter r) = Raised e))
  /\ forall c, ~ In (CallApi c) (snd (Primary.generate_charter r)).
Proof.
  unfold Primary.generate_charter.
  destruct (is_json r); cbn [negb].
  2: { split; [left; eexists; reflexivity | cbn; tauto]. }
  destruct (body r) as [[| | | | | d] |];
    try (split; [right; eexists; reflexivity | cbn; tauto]).
  destruct (Primary.missing_fields d) as [| f fs].
  - rewrite primary_user_prompt_fails.
    split; [right; eexists; reflexivity |].
    intros c [H | []]; discriminate.
  - split; [left; eexists; reflexivity | cbn; tauto].
Qed.

(** X2: served by the primary handler, a POST to the charter route with a
    JSON object that passes validation is answered with the framework's
    500 page (the [NameError] of the prompt escapes the view). *)
Theorem dispatch_valid_request_500 (r : request) (d : list (string * json)) :
  method r = POST ->
  path r = "/webhook/praxis-charter" ->
  is_json r = true ->
  body r = Some (JObj d) ->
  Primary.missing_fields d = [] ->
  dispatch Primary.generate_charter r = Resp 500 (FrameworkPage 500).
Proof.
  intros Hm Hp Hj Hb Hf. unfold dispatch. rewrite Hp, Hm. cbn.
  unfold Primary.generate_charter. rewrite Hj, Hb, Hf. cbn [negb].
  rewrite primary_user_prompt_fails. reflexivity.
Qed.

Lemma dispatch_valid_request_500_witness :
  dispatch Primary.generate_charter sample_request = Resp 500 (FrameworkPage 500).
Proof.
  apply (dispatch_valid_request_500 sample_request
           [("projectName", JStr "Apollo"); ("projectGoal", JStr "Launch")]);
    reflexivity.
Defined.

(** X3: with a JSON content type but a body that does not decode, the
    primary handler raises [BadRequest] before any other step, and the
    client gets the framework's 400 page. *)
Theorem primary_malformed_json (r : request) :
  method r = POST ->
  path r = "/webhook/praxis-charter" ->
  is_json r = true ->
  body r = None ->
  Primary.generate_charter r = (Raised Primary.bad_request, [])
  /\ dispatch Primary.generate_charter r = Resp 400 (FrameworkPage 400).
Proof.
  intros Hm Hp Hj Hb.
  assert (H : Primary.generate_charter r = (Raised Primary.bad_request, [])).
  { unfold Primary.generate_charter. rewrite Hj, Hb. reflexivity. }
  split; [exact H |]. unfold dispatch. rewrite Hp, Hm. cbn. rewrite H. reflexivity.
Qed.

Lemma primary_malformed_json_witness :
  dispatch Primary.generate_charter
    (mkRequest POST "/webhook/praxis-charter" "application/json" None)
  = Resp 400 (FrameworkPage 400).
Proof.
  apply (primary_malformed_json
           (mkRequest POST "/webhook/praxis-charter" "application/json" None));
    reflexivity.
Defined.

(** X4: a JSON body that is valid but not an object (an array, a string,
    a number, [true]/[false] or [null]) makes [data.get] raise
    [AttributeError]; nothing else happens and the client gets the
    framework's 500 page. *)
Theorem primary_non_object_body (r : request) (j : json) :
  method r = POST ->
  path r = "/webhook/praxis-charter" ->
  is_json r = true ->
  body r = Some j ->
  (forall d, j <> JObj d) ->
  Primary.generate_charter r = (Raised (Primary.no_get j), [])
  /\ dispatch Primary.generate_charter r = Resp 500 (FrameworkPage 500).
Proof.
  intros Hm Hp Hj Hb Hnd.
  assert (H : Primary.generate_charter r = (Raised (Primary.no_get j), [])).
  { unfold Primary.generate_charter. rewrite Hj, Hb. cbn [negb].
    destruct j; try reflexivity. exfalso. eapply Hnd. reflexivity. }
  split; [exact H |]. unfold dispatch. rewrite Hp, Hm. cbn. rewrite H. reflexivity.
Qed.

Lemma primary_non_object_body_witness :
  dispatch Primary.generate_charter
    (mkRequest POST "/webhook/praxis-charter" "application/json"
       (Some (JArr [JStr "projectName"])))
  = Resp 500 (FrameworkPage 500).
Proof.
  apply (primary_non_object_body
           (mkRequest POST "/webhook/praxis-charter" "application/json"
              (Some (JArr [JStr "projectName"]))) (JArr [JStr "projectName"]));
    try reflexivity.
  intros d H. discriminate.
Defined.

(** X5: a present [projectName] whose value is falsy ([null], [false],
    [0], [""], [[]] or [{}]) is reported missing exactly like an absent
    one. *)
Theorem primary_falsy_name_missing (r : request) (d : list (string * json)) (v : json) :
  is_json r = true ->
  body r = Some (JObj d) ->
  dict_get d "projectName" = Some v ->
  In v [JNull; JBool false; JNum 0; JStr ""; JArr []; JObj []] ->
  truthy (get_or d "projectGoal" JNull) = true ->
  Primary.generate_charter r
  = (Resp 400 (Json (error_body "Missing required fields: projectName" 400)), []).
Proof.
  intros Hj Hb Hv Hin Hg.
  apply truthy_false_iff in Hin.
  assert (Hn : truthy (get_or d "projectName" JNull) = false).
  { unfold get_or. rewrite Hv. exact Hin. }
  unfold Primary.generate_charter. rewrite Hj, Hb. cbn [negb].
  unfold Primary.missing_fields, Primary.required_fields. cbn [filter].
  rewrite Hn, Hg. reflexivity.
Qed.

Lemma primary_falsy_name_missing_witness :
  Primary.generate_charter (mkRequest POST "/webhook/praxis-charter" "application/json"
    (Some (JObj [("projectName", JNum 0); ("projectGoal", JStr "G")])))
  = (Resp 400 (Json (error_body "Missing required fields: projectName" 400)), []).
Proof.
  apply (primary_falsy_name_missing
           (mkRequest POST "/webhook/praxis-charter" "application/json"
              (Some (JObj [("projectName", JNum 0); ("projectGoal", JStr "G")])))
           [("projectName", JNum 0); ("projectGoal", JStr "G")] (JNum 0));
    try reflexivity.
  cbn. tauto.
Defined.

(** X6: when the pasted handler cannot read the body as a JSON object
    (non-JSON content type, undecodable body, or a JSON value that is not an
    object) it answers 500 with [{success: false, message}] and makes no
    upstream call. *)
Theorem pasted_unreadable_body_no_call (now : string) (api : api_call -> api_result)
    (r : request) :
  (forall d, Pasted.get_json r <> inr (JObj d)) ->
  snd (Pasted.generate_charter now api r) = []
  /\ exists m, fst (Pasted.generate_charter now api r)
               = Resp 500 (Json (JObj [("success", JBool false); ("message", JStr m)])).
Proof.
  intros Hnd. unfold Pasted.generate_charter.
  destruct (Pasted.get_json r) as [e | [| | | | | d]];
    try (split; [reflexivity | eexists; reflexivity]).
  exfalso. eapply Hnd. reflexivity.
Qed.

Lemma pasted_unreadable_body_no_call_witness :
  Pasted.generate_charter "t" (fun _ => ApiOk ["x"] 1 1)
    (mkRequest POST "/webhook/praxis-charter" "text/plain" None)
  = (Resp 500 (Json (JObj [("success", JBool false);
       ("message", JStr "415 Unsupported Media Type: Did not attempt to load JSON data because the request Content-Type was not 'application/json'.")])), []).
Proof.
  pose proof (pasted_unreadable_body_no_call "t" (fun _ => ApiOk ["x"] 1 1)
                (mkRequest POST "/webhook/praxis-charter" "text/plain" None)) as H.
  destruct H as [Hs [m Hf]].
  - intros d Hd. discriminate.
  - destruct (Pasted.generate_charter "t" (fun _ => ApiOk ["x"] 1 1)
                (mkRequest POST "/webhook/praxis-charter" "text/plain" None)) eqn:E.
    cbn in Hs, Hf. subst. vm_compute in E. injection E as <-. reflexivity.
Defined.

(** X7: a successful upstream call that returns no text segment makes
    [message.content[0]] raise; the handler answers 500 with
    [{success: false, message: "list index out of range"}]. *)
Theorem pasted_empty_content (now : string) (api : api_call -> api_result)
    (r : request) (d : list (string * json)) (input_tokens output_tokens : Z) :
  Pasted.get_json r = inr (JObj d) ->
  api Pasted.the_call = ApiOk [] input_tokens output_tokens ->
  Pasted.generate_charter now api r
  = (Resp 500 (Json (JObj [("success", JBool false);
                           ("message", JStr "list index out of range")])),
     [CallApi Pasted.the_call]).
Proof. intros Hj Ha. unfold Pasted.generate_charter. rewrite Hj, Ha. reflexivity. Qed.

Lemma pasted_empty_content_witness :
  Pasted.generate_charter "t" (fun _ => ApiOk [] 10 0) sample_request
  = (Resp 500 (Json (JObj [("success", JBool false);
                           ("message", JStr "list index out of range")])),
     [CallApi Pasted.the_call]).
Proof.
  apply (pasted_empty_content "t" (fun _ => ApiOk [] 10 0) sample_request
           [("projectName", JStr "Apollo"); ("projectGoal", JStr "Launch")] 10 0);
    reflexivity.
Defined.

(** X8: the pasted handler calls the upstream API at most once, and always
    with the same model, token ceiling and placeholder prompt: no field of
    the request reaches the call. *)
Theorem pasted_single_fixed_call (now : string) (api : api_call -> api_result)
    (r : request) :
  snd (Pasted.generate_charter now api r) = []
  \/ snd (Pasted.generate_charter now api r)
     = [CallApi (mkApiCall "claude-sonnet-4-20250514" 8000
                   "[INSERT THE FULL PROMPT FROM ABOVE HERE]")].
Proof.
  unfold Pasted.generate_charter.
  destruct (Pasted.get_json r) as [e | [| | | | | d]]; try (left; reflexivity).
  right. destruct (api Pasted.the_call) as [[| c rest] it ot | e]; reflexivity.
Qed.

(** X9: the pasted handler never lets an exception escape: every request
    is answered with a JSON body, with status 200 and [success: true] or
    status 500 and [success: false]. *)
Theorem pasted_always_answers (now : string) (api : api_call -> api_result)
    (r : request) :
  (exists rest, fst (Pasted.generate_charter now api r)
                = Resp 200 (Json (JObj (("success", JBool true) :: rest))))
  \/ (exists m, fst (Pasted.generate_charter now api r)
                = Resp 500 (Json (JObj [("success", JBool false); ("message", JStr m)]))).
Proof.
  unfold Pasted.generate_charter.
  destruct (Pasted.get_json r) as [e | [| | | | | d]]; try (right; eexists; reflexivity).
  destruct (api Pasted.the_call) as [[| c rest] it ot | e];
    [right | left | right]; eexists; reflexivity.
Qed.

(** X10: the view bound to the charter route runs only for POST requests
    to that route: for any other request, the answer does not depend on
    which view is bound there. *)
Theorem dispatch_view_only_for_post (w1 w2 : request -> outcome * list event)
    (r : request) :
  method r <> POST \/ path r <> "/webhook/praxis-charter" ->
  dispatch w1 r = dispatch w2 r.
Proof.
  intros H. unfold dispatch.
  destruct (String.eqb (path r) "/"); [reflexivity |].
  destruct (String.eqb (path r) "/webhook/praxis-charter") eqn:E; [| reflexivity].
  apply String.eqb_eq in E.
  destruct (method r) eqn:Em; try reflexivity.
  destruct H as [H | H]; contradiction.
Qed.

Lemma dispatch_view_only_for_post_witness :
  dispatch Primary.generate_charter (mkRequest GET "/webhook/praxis-charter" "" None)
  = dispatch (Pasted.generate_charter "t" (fun _ => ApiOk ["x"] 1 1))
      (mkRequest GET "/webhook/praxis-charter" "" None).
Proof.
  apply (dispatch_view_only_for_post Primary.generate_charter
           (Pasted.generate_charter "t" (fun _ => ApiOk ["x"] 1 1))
           (mkRequest GET "/webhook/praxis-charter" "" None)).
  left. discriminate.
Defined.
